(** * Schema provisioner: [create_schemas.py]

    A shallow embedding of the one-shot provisioning script and the
    properties of its control loop, of its executor and of the two
    schema texts it ships. *)

From Stdlib Require Import ZArith List Bool Ascii String Lia.
Import ListNotations.

Local Open Scope string_scope.
Local Open Scope Z_scope.

(** ** The schema texts

    The two module constants, byte for byte as between the triple quotes
    of the source (each starts and ends with a line feed). *)

Definition FOOTBALL_SCHEMA_SQL : string := "
DROP TABLE IF EXISTS raw_pl_matches CASCADE;

CREATE TABLE raw_pl_matches (
    id SERIAL PRIMARY KEY,
    league_division VARCHAR(10) NOT NULL,
    match_date DATE NOT NULL,
    kickoff_time TIME,
    home_team VARCHAR(100) NOT NULL,
    away_team VARCHAR(100) NOT NULL,
    ft_home_goals INTEGER,
    ft_away_goals INTEGER,
    ft_result VARCHAR(1),
    ht_home_goals INTEGER,
    ht_away_goals INTEGER,
    ht_result VARCHAR(1),
    referee VARCHAR(100),
    home_shots INTEGER,
    away_shots INTEGER,
    home_shots_on_target INTEGER,
    away_shots_on_target INTEGER,
    home_corners INTEGER,
    away_corners INTEGER,
    home_fouls INTEGER,
    away_fouls INTEGER,
    home_yellow_cards INTEGER,
    away_yellow_cards INTEGER,
    home_red_cards INTEGER,
    away_red_cards INTEGER,
    bet365_home_odds DECIMAL(5, 2),
    bet365_draw_odds DECIMAL(5, 2),
    bet365_away_odds DECIMAL(5, 2),
    bet365_over_2_5 DECIMAL(5, 2),
    bet365_under_2_5 DECIMAL(5, 2),
    asian_handicap DECIMAL(4, 1),
    bet365_ah_home_odds DECIMAL(5, 2),
    bet365_ah_away_odds DECIMAL(5, 2),
    season VARCHAR(10) DEFAULT '2526',
    data_source VARCHAR(50) DEFAULT 'football-data.co.uk',
    created_at TIMESTAMP DEFAULT CURRENT_TIMESTAMP,
    updated_at TIMESTAMP DEFAULT CURRENT_TIMESTAMP
);

CREATE INDEX idx_raw_pl_matches_date ON raw_pl_matches(match_date);
CREATE INDEX idx_raw_pl_matches_home ON raw_pl_matches(home_team);
CREATE INDEX idx_raw_pl_matches_away ON raw_pl_matches(away_team);
CREATE INDEX idx_raw_pl_matches_league ON raw_pl_matches(league_division);
".

Definition HOUSING_SCHEMA_SQL : string := "
CREATE SCHEMA IF NOT EXISTS raw;
CREATE SCHEMA IF NOT EXISTS staging;
CREATE SCHEMA IF NOT EXISTS marts;

GRANT ALL PRIVILEGES ON SCHEMA raw TO dataeng;
GRANT ALL PRIVILEGES ON SCHEMA staging TO dataeng;
GRANT ALL PRIVILEGES ON SCHEMA marts TO dataeng;

CREATE TABLE IF NOT EXISTS raw.listings (
    listing_id VARCHAR(50) NOT NULL,
    url TEXT NOT NULL,
    title TEXT,
    property_type VARCHAR(50),
    typology VARCHAR(10),
    price_eur NUMERIC(12, 2),
    price_per_m2 NUMERIC(10, 2),
    area_m2 NUMERIC(10, 2),
    full_address TEXT,
    city VARCHAR(200),
    province VARCHAR(200),
    district VARCHAR(100),
    agency_name VARCHAR(200),
    scraped_at TIMESTAMP NOT NULL,
    inserted_at TIMESTAMP DEFAULT CURRENT_TIMESTAMP,
    CONSTRAINT pk_raw_listings PRIMARY KEY (listing_id, scraped_at)
);

CREATE INDEX IF NOT EXISTS idx_raw_listings_scraped_at ON raw.listings(scraped_at DESC);
CREATE INDEX IF NOT EXISTS idx_raw_listings_city ON raw.listings(city);
CREATE INDEX IF NOT EXISTS idx_raw_listings_province ON raw.listings(province);
CREATE INDEX IF NOT EXISTS idx_raw_listings_price ON raw.listings(price_eur) WHERE price_eur IS NOT NULL;
CREATE INDEX IF NOT EXISTS idx_raw_listings_url ON raw.listings(url);

CREATE OR REPLACE VIEW raw.listings_latest AS
SELECT DISTINCT ON (listing_id)
    listing_id, url, title, property_type, typology,
    price_eur, price_per_m2, area_m2,
    full_address, city, province, district, agency_name,
    scraped_at, inserted_at
FROM raw.listings
ORDER BY listing_id, scraped_at DESC;

CREATE TABLE IF NOT EXISTS staging.price_history (
    id SERIAL PRIMARY KEY,
    listing_id VARCHAR(50) NOT NULL,
    url TEXT NOT NULL,
    price_eur NUMERIC(12, 2),
    price_per_m2 NUMERIC(10, 2),
    scraped_at TIMESTAMP NOT NULL,
    created_at TIMESTAMP DEFAULT CURRENT_TIMESTAMP,
    CONSTRAINT uq_price_history UNIQUE (listing_id, scraped_at)
);

CREATE INDEX IF NOT EXISTS idx_price_history_listing ON staging.price_history(listing_id);

COMMENT ON SCHEMA raw IS 'Raw data as ingested from Imovirtual';
COMMENT ON SCHEMA staging IS 'Intermediate transformations via dbt';
COMMENT ON SCHEMA marts IS 'Final analytics-ready tables via dbt';
COMMENT ON TABLE raw.listings IS 'All listing snapshots - one row per listing per scrape date';
COMMENT ON VIEW raw.listings_latest IS 'Latest snapshot of each listing';
".

(** ** The host: console and child processes

    [subprocess.run(cmd, capture_output=True, text=True)] either returns a
    completed process (exit status and the two captured streams) or raises
    (the container runtime cannot be started, say). What the child does is
    decided by the outside world, which the model threads as a state. *)

Record CompletedProcess : Type := mkCompleted {
  args : list string;
  returncode : Z;
  stdout : string;
  stderr : string
}.

Inductive exn : Type :=
| SystemExit (code : Z)
| Exception (what : string).

(** The fate of a spawned command: the child ran and exited, or
    [subprocess.run] raised (the child could not be started, say). *)
Inductive spawned : Type :=
| Exited (cp : CompletedProcess)
| Raised (what : string).

Inductive event : Type :=
| Printed (text : string)
| Ran (cmd : list string) (answer : spawned).

Inductive result (A : Type) : Type :=
| Ret (a : A)
| Raise (e : exn).

Arguments Ret {A} a.
Arguments Raise {A} e.

(** Line feed, the [\n] of the source's string literals. *)
Definition LF : string := String "010"%char EmptyString.

(** The argument vector of the database client, as [execute_sql] builds it. *)
Definition psql_cmd (database sql : string) : list string :=
  [ "docker"; "exec"; "postgres";
    "psql"; "-U"; "postgres"; "-d"; database;
    "-c"; sql ].

(** The [-d] and [-c] arguments of such a vector. *)
Definition database_of (cmd : list string) : string := nth 7 cmd EmptyString.
Definition sql_of (cmd : list string) : string := nth 9 cmd EmptyString.

(** What the log of a run shows. *)
Fixpoint printed (log : list event) : list string :=
  match log with
  | [] => []
  | Printed s :: log' => s :: printed log'
  | Ran _ _ :: log' => printed log'
  end.

Fixpoint invocations (log : list event) : list (list string * spawned) :=
  match log with
  | [] => []
  | Printed _ :: log' => invocations log'
  | Ran cmd a :: log' => (cmd, a) :: invocations log'
  end.

Definition commands (log : list event) : list (list string) :=
  map fst (invocations log).

(** An invocation succeeded when the child exited with status zero. *)
Definition succeeded (a : spawned) : bool :=
  match a with
  | Exited cp => returncode cp =? 0
  | Raised _ => false
  end.

(** Every invocation of the log succeeded. *)
Definition all_succeeded (log : list event) : bool :=
  forallb (fun i => succeeded (snd i)) (invocations log).

(** The last [n] entries of a list, oldest first. *)
Definition tail_of {A} (n : nat) (l : list A) : list A :=
  rev (firstn n (rev l)).

(** [contains needle hay]: [needle] occurs in [hay]. *)
Fixpoint contains (needle hay : string) : bool :=
  prefix needle hay ||
  match hay with
  | EmptyString => false
  | String _ hay' => contains needle hay'
  end.

(** The outside world and its answer to a spawned command. *)
Class Host : Type := {
  World : Type;
  subprocess_run : list string -> World -> spawned * World
}.

Declare Scope py_scope.
Delimit Scope py_scope with py.

Section Program.

Context {host : Host}.

Record state : Type := mkState {
  world : World;
  log : list event
}.

Definition M (A : Type) : Type := state -> result A * state.

Definition ret {A} (a : A) : M A := fun st => (Ret a, st).

Definition bind {A B} (c : M A) (k : A -> M B) : M B :=
  fun st =>
    match c st with
    | (Ret a, st') => k a st'
    | (Raise e, st') => (Raise e, st')
    end.

Notation "x <- c ;; k" := (bind c (fun x => k))
  (at level 61, c at next level, right associativity) : py_scope.
Notation "c ;; k" := (bind c (fun _ => k))
  (at level 61, right associativity) : py_scope.
Local Open Scope py_scope.

Definition print (s : string) : M unit :=
  fun st => (Ret tt, mkState (world st) (log st ++ [Printed s])).

Definition sys_exit {A} (code : Z) : M A :=
  fun st => (Raise (SystemExit code), st).

Definition run (cmd : list string) : M CompletedProcess :=
  fun st =>
    let (answer, w') := subprocess_run cmd (world st) in
    let st' := mkState w' (log st ++ [Ran cmd answer]) in
    match answer with
    | Exited cp => (Ret cp, st')
    | Raised what => (Raise (Exception what), st')
    end.

(** [for x in xs: body]. *)
Fixpoint for_each {A} (xs : list A) (body : A -> M unit) : M unit :=
  match xs with
  | [] => ret tt
  | x :: xs' => body x;; for_each xs' body
  end.

(** *** [execute_sql] *)
Definition execute_sql (database sql : string) : M bool :=
  let cmd := psql_cmd database sql in
  result <- run cmd;;
  if negb (returncode result =? 0) then
    print ("❌ Error in " ++ database ++ ": " ++ stderr result);;
    ret false
  else
    ret true.

(** *** [main] *)
Definition main : M unit :=
  print "🔧 Creating database schemas...";;
  (* Football Data schemas *)
  print (LF ++ "📊 Football Data:");;
  for_each ["dev"; "prod"] (fun env =>
    let db := "football_data_" ++ env in
    print ("  Creating schema in " ++ db ++ "...");;
    success <- execute_sql db FOOTBALL_SCHEMA_SQL;;
    if success : bool then
      print ("  ✅ " ++ db ++ " schema created")
    else
      print ("  ❌ " ++ db ++ " schema failed");;
      sys_exit 1);;
  (* Housing schemas *)
  print (LF ++ "🏠 Housing Market:");;
  for_each ["dev"; "prod"] (fun env =>
    let db := "portugal_houses_" ++ env in
    print ("  Creating schema in " ++ db ++ "...");;
    success <- execute_sql db HOUSING_SCHEMA_SQL;;
    if success : bool then
      print ("  ✅ " ++ db ++ " schema created")
    else
      print ("  ❌ " ++ db ++ " schema failed");;
      sys_exit 1);;
  print (LF ++ "✅ All schemas created successfully!").

(** *** The script as a process

    [if __name__ == "__main__": main()]: the interpreter exits with status
    0 when [main] returns, with the code of an uncaught [SystemExit], and
    with status 1 on any other uncaught exception. *)
Definition exit_status (r : result unit) : Z :=
  match r with
  | Ret _ => 0
  | Raise (SystemExit code) => code
  | Raise (Exception _) => 1
  end.

Definition script (w : World) : Z * list event :=
  let (r, st) := main (mkState w []) in
  (exit_status r, log st).

(** The two observables of a run started in the world [w]. *)
Definition status (w : World) : Z := fst (script w).
Definition trace (w : World) : list event := snd (script w).

End Program.


(** ** A scripted host

    A concrete outside world for examples: the replies of the successive
    child processes are listed in advance; once the list is used up every
    further child exits with status zero and empty streams. *)
Module Scripted.

Inductive reply : Type :=
| Exits (code : Z) (out err : string)
| Fails (what : string).

Definition answer (cmd : list string) (r : reply) : spawned :=
  match r with
  | Exits code out err => Exited (mkCompleted cmd code out err)
  | Fails what => Raised what
  end.

Definition ok : reply := Exits 0 EmptyString EmptyString.

Definition spawn (cmd : list string) (w : list reply) : spawned * list reply :=
  match w with
  | [] => (answer cmd ok, [])
  | r :: w' => (answer cmd r, w')
  end.

Definition host : Host := {| World := list reply; subprocess_run := spawn |}.

Definition status : list reply -> Z := @status host.
Definition trace : list reply -> list event := @trace host.

(** The state in which a call finds the console empty and the replies [w]
    pending. *)
Definition start (w : list reply) : @state host := @mkState host w [].

(** Every child succeeds. *)
Definition all_fine : list reply := [].

(** The second child, that of football/prod, exits with status 2. *)
Definition prod_unreachable : list reply :=
  [ok; Exits 2 EmptyString "psql: error: connection refused"].

End Scripted.

(** ** The declared targets

    The datasets and environments that [main] walks through, in the order of
    the source: the football loop first, then the housing loop, each over
    [dev] then [prod]. *)

Inductive dataset : Type := Football | Housing.

Definition datasets : list dataset := [Football; Housing].

Definition environments : list string := ["dev"; "prod"].

(** The prefix of the database names of a dataset, from the f-strings of the
    two loops. *)
Definition db_prefix (d : dataset) : string :=
  match d with
  | Football => "football_data"
  | Housing => "portugal_houses"
  end.

(** The text each loop hands to [execute_sql]. *)
Definition schema_text (d : dataset) : string :=
  match d with
  | Football => FOOTBALL_SCHEMA_SQL
  | Housing => HOUSING_SCHEMA_SQL
  end.

(** The name printed in the header line of each loop. *)
Definition display_name (d : dataset) : string :=
  match d with
  | Football => "Football Data"
  | Housing => "Housing Market"
  end.

Definition target_db (d : dataset) (env : string) : string :=
  db_prefix d ++ "_" ++ env.

Definition declared_targets : list (dataset * string) :=
  flat_map (fun d => map (fun env => (d, env)) environments) datasets.

Definition target_cmd (t : dataset * string) : list string :=
  psql_cmd (target_db (fst t) (snd t)) (schema_text (fst t)).

(** The line that confirms a target, and the closing line of a full run. *)
Definition confirmation (t : dataset * string) : string :=
  "  ✅ " ++ target_db (fst t) (snd t) ++ " schema created".

Definition closing_line : string :=
  LF ++ "✅ All schemas created successfully!".

(** ** Reading a schema text

    The script treats the two texts as opaque; to state what they contain
    they are cut into statements (at each semicolon outside a quoted
    literal), each statement into tokens (words, quoted literals, and the
    punctuation marks [(], [)] and [,]), and each token list is read as one
    of the statement forms the texts use. *)
Module Sql.

Definition is_space (c : ascii) : bool :=
  ((c =? " ") || (c =? "010") || (c =? "009") || (c =? "013"))%char.

Definition is_punct (c : ascii) : bool :=
  ((c =? "(") || (c =? ")") || (c =? ","))%char.

Definition is_quote (c : ascii) : bool := (c =? "'")%char.

(** [split s quoted] is the text up to the first free semicolon of [s]
    and the pieces after it. *)
Fixpoint split (s : string) (quoted : bool) : string * list string :=
  match s with
  | EmptyString => (EmptyString, [])
  | String c s' =>
      if negb quoted && (c =? ";")%char then
        let (cur, rest) := split s' false in
        (EmptyString, cur :: rest)
      else
        let (cur, rest) := split s' (xorb quoted (is_quote c)) in
        (String c cur, rest)
  end.

Definition push (word : string) (ts : list string) : list string :=
  match word with
  | EmptyString => ts
  | _ => word :: ts
  end.

(** [scan s quoted] is the word being read at the head of [s] and the
    tokens after it. *)
Fixpoint scan (s : string) (quoted : bool) : string * list string :=
  match s with
  | EmptyString => (EmptyString, [])
  | String c s' =>
      if quoted || is_quote c then
        let (word, ts) := scan s' (xorb quoted (is_quote c)) in
        (String c word, ts)
      else
        let (word, ts) := scan s' false in
        if is_space c then (EmptyString, push word ts)
        else if is_punct c then (EmptyString, String c EmptyString :: push word ts)
        else (String c word, ts)
  end.

Definition tokens (s : string) : list string :=
  let (word, ts) := scan s false in push word ts.

Definition nonempty {A} (l : list A) : bool :=
  match l with [] => false | _ => true end.

(** The token lists of the statements of a text, blank pieces dropped. *)
Definition statements (text : string) : list (list string) :=
  let (first, rest) := split text false in
  filter nonempty (map tokens (first :: rest)).

(** [strip kw ts] drops the keywords [kw] from the front of [ts]. *)
Fixpoint strip (kw ts : list string) : option (list string) :=
  match kw with
  | [] => Some ts
  | k :: kw' =>
      match ts with
      | t :: ts' => if (k =? t)%string then strip kw' ts' else None
      | [] => None
      end
  end.

Definition optional (kw ts : list string) : list string :=
  match strip kw ts with
  | Some ts' => ts'
  | None => ts
  end.

(** The tokens after the first occurrence of the keywords [kw]. *)
Fixpoint after (kw ts : list string) : option (list string) :=
  match strip kw ts with
  | Some rest => Some rest
  | None =>
      match ts with
      | [] => None
      | _ :: ts' => after kw ts'
      end
  end.

(** The names listed up to the closing parenthesis, commas dropped. *)
Fixpoint listed (ts : list string) : list string :=
  match ts with
  | [] => []
  | t :: ts' =>
      if (t =? ")")%string then []
      else if (t =? ",")%string then listed ts'
      else t :: listed ts'
  end.

(** The column list [( c1, ..., cn )] at the head of [ts]. *)
Definition columns (ts : list string) : option (list string) :=
  match ts with
  | t :: ts' => if (t =? "(")%string then Some (listed ts') else None
  | [] => None
  end.

(** The column list that follows the keywords [kw] in a table body. *)
Definition key_of (kw body : list string) : option (list string) :=
  match after kw body with
  | Some rest => columns rest
  | None => None
  end.

Inductive statement : Type :=
| DropTable (table : string)
| CreateSchema (schema : string)
| GrantOnSchema (schema grantee : string)
| CreateTable (table : string) (body : list string)
| CreateIndex (index table : string) (key : list string)
| CreateView (view : string) (query : list string)
| CommentOn (kind object : string)
| Other (ts : list string).

Definition read_create (ts : list string) : option statement :=
  match strip ["SCHEMA"] ts with
  | Some rest =>
      match optional ["IF"; "NOT"; "EXISTS"] rest with
      | [name] => Some (CreateSchema name)
      | _ => None
      end
  | None =>
  match strip ["TABLE"] ts with
  | Some rest =>
      match optional ["IF"; "NOT"; "EXISTS"] rest with
      | name :: body => Some (CreateTable name body)
      | _ => None
      end
  | None =>
  match strip ["INDEX"] ts with
  | Some rest =>
      match optional ["IF"; "NOT"; "EXISTS"] rest with
      | name :: on :: table :: key =>
          if (on =? "ON")%string then
            match columns key with
            | Some cols => Some (CreateIndex name table cols)
            | None => None
            end
          else None
      | _ => None
      end
  | None =>
  match strip ["VIEW"] (optional ["OR"; "REPLACE"] ts) with
  | Some (name :: kw :: query) =>
      if (kw =? "AS")%string then Some (CreateView name query) else None
  | _ => None
  end end end end.

Definition read (ts : list string) : statement :=
  let unread := Other ts in
  match strip ["CREATE"] ts with
  | Some rest =>
      match read_create rest with
      | Some st => st
      | None => unread
      end
  | None =>
  match strip ["DROP"; "TABLE"] ts with
  | Some rest =>
      match optional ["IF"; "EXISTS"] rest with
      | name :: _ => DropTable name
      | _ => unread
      end
  | None =>
  match strip ["GRANT"; "ALL"; "PRIVILEGES"; "ON"; "SCHEMA"] ts with
  | Some [schema; kw; grantee] =>
      if (kw =? "TO")%string then GrantOnSchema schema grantee else unread
  | Some _ => unread
  | None =>
  match strip ["COMMENT"; "ON"] ts with
  | Some [kind; object; kw; _] =>
      if (kw =? "IS")%string then CommentOn kind object else unread
  | _ => unread
  end end end end.

(** The items of a parenthesised table body: its tokens cut at the commas
    of the outer level, the enclosing parentheses dropped. *)
Fixpoint items_from (ts : list string) (depth : nat) : list string * list (list string) :=
  match ts with
  | [] => ([], [])
  | t :: ts' =>
      if (t =? "(")%string then
        let (cur, rest) := items_from ts' (S depth) in
        match depth with
        | O => (cur, rest)
        | _ => (t :: cur, rest)
        end
      else if (t =? ")")%string then
        match depth with
        | O | 1%nat => ([], [])
        | S d => let (cur, rest) := items_from ts' d in (t :: cur, rest)
        end
      else if (t =? ",")%string && (depth =? 1)%nat then
        let (cur, rest) := items_from ts' depth in ([], cur :: rest)
      else
        let (cur, rest) := items_from ts' depth in (t :: cur, rest)
  end.

Definition items (body : list string) : list (list string) :=
  let (cur, rest) := items_from body 0 in cur :: rest.

(** The names of the columns a table body declares. *)
Definition column_names (body : list string) : list string :=
  flat_map (fun item =>
              match item with
              | name :: _ => if (name =? "CONSTRAINT")%string then [] else [name]
              | [] => []
              end) (items body).

Definition parse (text : string) : list statement :=
  map read (statements text).

(** Projections of a parsed text. *)
Definition schemas (l : list statement) : list string :=
  flat_map (fun s => match s with CreateSchema n => [n] | _ => [] end) l.

Definition grants (l : list statement) : list (string * string) :=
  flat_map (fun s => match s with GrantOnSchema n g => [(n, g)] | _ => [] end) l.

Definition dropped (l : list statement) : list string :=
  flat_map (fun s => match s with DropTable n => [n] | _ => [] end) l.

Definition tables (l : list statement) : list string :=
  flat_map (fun s => match s with CreateTable n _ => [n] | _ => [] end) l.

Definition indexes (l : list statement) : list (string * list string) :=
  flat_map (fun s => match s with CreateIndex _ t k => [(t, k)] | _ => [] end) l.

Definition views (l : list statement) : list string :=
  flat_map (fun s => match s with CreateView n _ => [n] | _ => [] end) l.

Definition comments (l : list statement) : list (string * string) :=
  flat_map (fun s => match s with CommentOn k n => [(k, n)] | _ => [] end) l.

Definition unread (l : list statement) : list (list string) :=
  flat_map (fun s => match s with Other ts => [ts] | _ => [] end) l.

Definition body_of (table : string) (l : list statement) : list string :=
  flat_map (fun s => match s with
                     | CreateTable n b => if (n =? table)%string then b else []
                     | _ => []
                     end) l.

Definition query_of (view : string) (l : list statement) : list string :=
  flat_map (fun s => match s with
                     | CreateView n q => if (n =? view)%string then q else []
                     | _ => []
                     end) l.

End Sql.

(** ** The naming convention as the specification words it

    The specification names the datasets [football] and [housing] and
    composes a target as [{dataset}_{env}], the football dataset excepted,
    whose prefix is [football_data]. [claimed_target_db name] is that
    convention over a naming [name] of the datasets. *)

Definition spec_name (d : dataset) : string :=
  match d with
  | Football => "football"
  | Housing => "housing"
  end.

Definition claimed_target_db (name : dataset -> string) (d : dataset) (env : string) : string :=
  match d with
  | Football => "football_data" ++ "_" ++ env
  | _ => name d ++ "_" ++ env
  end.

(** ** What the script looks at in an answer

    Of what a child leaves behind, [execute_sql] reads the exit status, and
    the standard error when the status is not zero; an exception of
    [subprocess.run] is passed on as it is. *)

Inductive outcome : Type :=
| Succeeded
| Failed (diagnostic : string)
| Crashed.

Definition outcome_of (a : spawned) : outcome :=
  match a with
  | Exited cp => if returncode cp =? 0 then Succeeded else Failed (stderr cp)
  | Raised _ => Crashed
  end.

Definition outcomes (log : list event) : list outcome :=
  map (fun i => outcome_of (snd i)) (invocations log).

(** The line that announces the attempt on a database. *)
Definition announcement (database : string) : string :=
  "  Creating schema in " ++ database ++ "...".

(** ** Checking a schema text against itself

    A text is sent to the server as one batch, which stops at the first
    statement that fails. [Ddl.self_contained] checks that each statement
    refers to objects that earlier statements of the same text create;
    [Ddl.guarded] that a statement does not fail when its object is there
    already. *)
Module Ddl.

Import Sql.

Definition mem (x : string) (l : list string) : bool :=
  existsb (String.eqb x) l.

Definition has (kw ts : list string) : bool :=
  match strip kw ts with
  | Some _ => true
  | None => false
  end.

(** The schema of a qualified name [schema.object], if it is qualified. *)
Fixpoint qualifier (name : string) : option string :=
  match name with
  | EmptyString => None
  | String c rest =>
      if (c =? ".")%char then Some EmptyString
      else option_map (String c) (qualifier rest)
  end.

Definition in_known_schema (seen : list statement) (name : string) : bool :=
  match qualifier name with
  | Some schema => mem schema (schemas seen)
  | None => true
  end.

(** The columns of an index key, the sort directions dropped. *)
Definition key_columns (key : list string) : list string :=
  filter (fun t => negb ((t =? "DESC") || (t =? "ASC"))%string) key.

(** The tokens before the keyword [kw]. *)
Fixpoint before (kw : string) (ts : list string) : list string :=
  match ts with
  | [] => []
  | t :: ts' => if (t =? kw)%string then [] else t :: before kw ts'
  end.

(** The columns a query selects: what stands between [SELECT], or
    [SELECT DISTINCT ON (...)], and [FROM]. *)
Definition select_list (query : list string) : list string :=
  let head := before "FROM" query in
  let cols :=
    match strip ["SELECT"; "DISTINCT"; "ON"] head with
    | Some rest =>
        match after [")"] rest with
        | Some cols => cols
        | None => []
        end
    | None => optional ["SELECT"] head
    end in
  filter (fun t => negb (t =? ",")%string) cols.

Definition source_table (query : list string) : option string :=
  match after ["FROM"] query with
  | Some (t :: _) => Some t
  | _ => None
  end.

Definition declares (seen : list statement) (table : string) (cols : list string) : bool :=
  mem table (tables seen) &&
  forallb (fun c => mem c (column_names (body_of table seen))) cols.

(** [resolved seen s]: what [s] refers to is created by [seen]. *)
Definition resolved (seen : list statement) (s : statement) : bool :=
  match s with
  | DropTable _ => true
  | CreateSchema _ => true
  | GrantOnSchema schema _ => mem schema (schemas seen)
  | CreateTable name _ => in_known_schema seen name
  | CreateIndex _ table key => declares seen table (key_columns key)
  | CreateView name query =>
      in_known_schema seen name &&
      match source_table query with
      | Some table => declares seen table (select_list query)
      | None => false
      end
  | CommentOn kind object =>
      if (kind =? "SCHEMA")%string then mem object (schemas seen)
      else if (kind =? "TABLE")%string then mem object (tables seen)
      else if (kind =? "VIEW")%string then mem object (views seen)
      else false
  | Other _ => false
  end.

Fixpoint resolved_from (seen l : list statement) : bool :=
  match l with
  | [] => true
  | s :: l' => resolved seen s && resolved_from (seen ++ [s]) l'
  end.

Definition self_contained (text : string) : bool :=
  resolved_from [] (parse text).

(** A statement that does not fail on an object that is there already. *)
Definition guarded (ts : list string) : bool :=
  has ["CREATE"; "SCHEMA"; "IF"; "NOT"; "EXISTS"] ts ||
  has ["CREATE"; "TABLE"; "IF"; "NOT"; "EXISTS"] ts ||
  has ["CREATE"; "INDEX"; "IF"; "NOT"; "EXISTS"] ts ||
  has ["CREATE"; "OR"; "REPLACE"; "VIEW"] ts ||
  has ["DROP"; "TABLE"; "IF"; "EXISTS"] ts ||
  has ["GRANT"] ts ||
  has ["COMMENT"; "ON"] ts.

(** A statement that creates the table [t] or an index on it. *)
Definition builds (t : string) (s : statement) : bool :=
  match s with
  | CreateTable name _ => (name =? t)%string
  | CreateIndex _ table _ => (table =? t)%string
  | _ => false
  end.

End Ddl.

(** * Properties *)

(** A run makes at most four calls to the outside world; the tactics below
    follow [main] through them, one case for each fate of each child, and
    leave the trace and the status of the run in each case. *)

Ltac reduce_run H :=
  cbv [script main for_each bind print ret sys_exit execute_sql run exit_status
       psql_cmd append app world log LF negb] in H.

Ltac step_run H :=
  match type of H with
  | context [subprocess_run ?c ?w] =>
      let E := fresh "Hspawn" in
      destruct (subprocess_run c w) as [[?cp | ?what] ?w] eqn:E;
      try rewrite E in H; reduce_run H
  | context [returncode ?cp =? 0] =>
      let E := fresh "Hrc" in
      destruct (returncode cp =? 0) eqn:E;
      try rewrite E in H; reduce_run H;
      [apply Z.eqb_eq in E | apply Z.eqb_neq in E]
  end.

Ltac run_cases w :=
  let s := fresh "s" in
  let l := fresh "l" in
  let H := fresh "Hrun" in
  unfold status, trace;
  destruct (script w) as [s l] eqn:H; cbn [fst snd];
  reduce_run H; repeat step_run H;
  injection H as <- <-.

(** Splits a membership in an explicit list into its cases. *)
Ltac in_cases :=
  repeat match goal with
         | H : _ \/ _ |- _ => destruct H
         | H : False |- _ => contradiction
         end.

(** Uses that all the invocations of an explicit trace succeeded. *)
Ltac all_ok H :=
  unfold all_succeeded in H; cbn in H;
  rewrite ?andb_true_iff, ?Z.eqb_eq in H;
  try solve [exfalso; intuition (try discriminate; try contradiction)].

(** Turns what is known of the exit statuses into equations on their tests. *)
Ltac rc_bool :=
  repeat match goal with
         | H : returncode _ = 0 |- _ => apply Z.eqb_eq in H
         | H : returncode _ <> 0 |- _ => apply Z.eqb_neq in H
         end.

Lemma printed_app (l1 l2 : list event) :
  printed (l1 ++ l2) = (printed l1 ++ printed l2)%list.
Proof.
  induction l1 as [|[s|c a] l1 IH]; cbn; congruence.
Qed.

Lemma in_firstn {A} (n : nat) (l : list A) (x : A) :
  In x (firstn n l) -> In x l.
Proof.
  revert l; induction n as [|n IH]; intros [|y l]; cbn; try tauto.
  intros [-> | Hin]; auto.
Qed.

Section Properties.

Context {host : Host}.

(** *** The executor *)

(** What [execute_sql] does, by the fate of the child. *)
Lemma execute_sql_exited database sql (st : state) cp w' :
  subprocess_run (psql_cmd database sql) (world st) = (Exited cp, w') ->
  execute_sql database sql st =
    if returncode cp =? 0 then
      (Ret true,
       mkState w' (log st ++ [Ran (psql_cmd database sql) (Exited cp)]))
    else
      (Ret false,
       mkState w' (log st ++ [Ran (psql_cmd database sql) (Exited cp);
                              Printed ("❌ Error in " ++ database ++ ": " ++ stderr cp)])).
Proof.
  intros Hrun. unfold execute_sql, bind, run. rewrite Hrun.
  destruct (returncode cp =? 0); cbn [negb]; [reflexivity|].
  unfold print, ret; cbn [world log]. now rewrite <- app_assoc.
Qed.

Lemma execute_sql_raised database sql (st : state) what w' :
  subprocess_run (psql_cmd database sql) (world st) = (Raised what, w') ->
  execute_sql database sql st =
    (Raise (Exception what),
     mkState w' (log st ++ [Ran (psql_cmd database sql) (Raised what)])).
Proof.
  intros Hrun. unfold execute_sql, bind, run. now rewrite Hrun.
Qed.

(** C5. External executor contract: for every database identifier and DDL
    text, when the client process exits, [execute_sql] returns success
    exactly when the exit status is zero; when the status is not zero it
    returns failure, having printed the captured standard-error text of
    the process as the diagnostic. The process it ran is the database
    client on that database with that text. *)
Theorem execute_sql_contract database sql (st : state) cp w' :
  subprocess_run (psql_cmd database sql) (world st) = (Exited cp, w') ->
  (fst (execute_sql database sql st) = Ret true <-> returncode cp = 0) /\
  (returncode cp <> 0 ->
     execute_sql database sql st =
       (Ret false,
        mkState w' (log st ++ [Ran (psql_cmd database sql) (Exited cp);
                               Printed ("❌ Error in " ++ database ++ ": " ++ stderr cp)]))) /\
  database_of (psql_cmd database sql) = database /\
  sql_of (psql_cmd database sql) = sql.
Proof.
  intros Hrun. rewrite (execute_sql_exited _ _ _ _ _ Hrun).
  destruct (Z.eqb_spec (returncode cp) 0) as [Hz | Hnz]; cbn [fst].
  - repeat split; auto. intros Hnz. contradiction.
  - repeat split; auto; try discriminate. intros Hz. contradiction.
Qed.

(** C10. The verdict of [execute_sql] depends on the exit status of the
    process alone: a nonzero status is a failure whatever the captured
    streams hold (an empty standard error included), a zero status is a
    success whatever they hold, and then nothing of them is printed; two
    children with the same status get the same verdict. *)
Theorem verdict_depends_on_returncode_only
    database sql (st1 st2 : state) cp1 cp2 w1 w2 :
  subprocess_run (psql_cmd database sql) (world st1) = (Exited cp1, w1) ->
  subprocess_run (psql_cmd database sql) (world st2) = (Exited cp2, w2) ->
  returncode cp1 = returncode cp2 ->
  fst (execute_sql database sql st1) = fst (execute_sql database sql st2) /\
  (returncode cp1 <> 0 -> fst (execute_sql database sql st1) = Ret false) /\
  (returncode cp1 = 0 ->
     fst (execute_sql database sql st1) = Ret true /\
     printed (log (snd (execute_sql database sql st1))) = printed (log st1)).
Proof.
  intros H1 H2 Hrc.
  rewrite (execute_sql_exited _ _ _ _ _ H1), (execute_sql_exited _ _ _ _ _ H2).
  rewrite <- Hrc.
  destruct (Z.eqb_spec (returncode cp1) 0) as [Hz | Hnz]; cbn [fst snd log].
  - repeat split; auto; try contradiction.
    rewrite printed_app. cbn. apply app_nil_r.
  - repeat split; auto; contradiction.
Qed.

(** *** Runs of the script *)

(** The commands of a run are the declared ones, in order, up to some point. *)
Lemma commands_declared (w : World) :
  exists n, commands (trace w) = firstn n (map target_cmd declared_targets).
Proof.
  run_cases w;
    first [ now exists 1%nat | now exists 2%nat | now exists 3%nat | now exists 4%nat ].
Qed.

Lemma at_most_four_commands (w : World) :
  (List.length (commands (trace w)) <= 4)%nat.
Proof.
  destruct (commands_declared w) as [n ->]. rewrite length_firstn. cbn. lia.
Qed.

(** C1. Abort on first failure: if in a run the invocation for the target
    T_k (the k-th of the declared order) reports failure, then the commands
    the run has spawned are exactly those of T_0 .. T_k, so that no target
    after T_k is attempted, in whatever dataset; every target before T_k
    has completed its invocation, with success; and the run ends there with
    status 1, the invocation being followed by the diagnostic and the
    failure line only. *)
Theorem abort_on_first_failure (w : World) (k : nat) cmd cp :
  nth_error (invocations (trace w)) k = Some (cmd, Exited cp) ->
  returncode cp <> 0 ->
  nth_error (map target_cmd declared_targets) k = Some cmd /\
  commands (trace w) = firstn (S k) (map target_cmd declared_targets) /\
  (forall j c, (k < j)%nat ->
     nth_error (map target_cmd declared_targets) j = Some c ->
     ~ In c (commands (trace w))) /\
  (forall i c, (i < k)%nat ->
     nth_error (map target_cmd declared_targets) i = Some c ->
     exists cpi,
       nth_error (invocations (trace w)) i = Some (c, Exited cpi) /\
       returncode cpi = 0) /\
  status w = 1 /\
  tail_of 3 (trace w) =
    [Ran cmd (Exited cp);
     Printed ("❌ Error in " ++ database_of cmd ++ ": " ++ stderr cp);
     Printed ("  ❌ " ++ database_of cmd ++ " schema failed")].
Proof.
  run_cases w; intros Hk Hnz;
    destruct k as [|[|[|[|[|k]]]]]; cbn in Hk; try discriminate Hk;
    injection Hk as Hc Hp; subst cmd cp; try contradiction.
  all: split; [reflexivity|]; split; [reflexivity|].
  all: split;
    [ intros j c Hj Hc; destruct j as [|[|[|[|[|j]]]]]; try lia;
      cbn in Hc; try discriminate Hc; injection Hc as <-;
      cbn; intros Hin; in_cases; discriminate |].
  all: split;
    [ intros i c Hi Hc; destruct i as [|[|[|i]]]; try lia;
      cbn in Hc; injection Hc as <-;
      eexists; (split; [reflexivity | assumption]) |].
  all: split; reflexivity.
Qed.

(** C2. Exit status contract: the run ends with status 0 exactly when every
    invocation succeeded, and then all the declared targets were invoked;
    if some invocation reported failure the run ends with status 1, and the
    last thing it did was to print the failure line that names the database
    of that invocation. No run ends with another status than 0 or 1. *)
Theorem exit_status_contract (w : World) :
  (all_succeeded (trace w) = true ->
     status w = 0 /\ commands (trace w) = map target_cmd declared_targets) /\
  (status w = 0 -> all_succeeded (trace w) = true) /\
  (status w = 0 \/ status w = 1) /\
  (forall cmd cp,
     In (cmd, Exited cp) (invocations (trace w)) ->
     returncode cp <> 0 ->
     status w = 1 /\
     tail_of 1 (trace w) =
       [Printed ("  ❌ " ++ database_of cmd ++ " schema failed")]).
Proof.
  run_cases w; (split; [intros Hall; all_ok Hall; now split |]);
    (split; [intros Hs; try discriminate Hs; unfold all_succeeded; cbn;
             rewrite ?andb_true_iff, ?Z.eqb_eq; now repeat split |]);
    (split; [auto |]);
    intros c p Hin Hnz; cbn in Hin; in_cases;
    match goal with
    | H : (_, _) = (_, _) |- _ => try discriminate H; injection H as <- <-
    end; try contradiction; now split.
Qed.

(** C6. Full-success scenario: when all the invocations of a run succeed,
    the lines it prints are the twelve below; those with the check mark are
    the confirmations of football/dev, football/prod, housing/dev and
    housing/prod, in this order, followed by the closing line; no line
    bears the failure mark; and the status is 0. *)
Theorem full_success_scenario (w : World) :
  all_succeeded (trace w) = true ->
  printed (trace w) =
    [ "🔧 Creating database schemas...";
      LF ++ "📊 Football Data:";
      "  Creating schema in football_data_dev...";
      "  ✅ football_data_dev schema created";
      "  Creating schema in football_data_prod...";
      "  ✅ football_data_prod schema created";
      LF ++ "🏠 Housing Market:";
      "  Creating schema in portugal_houses_dev...";
      "  ✅ portugal_houses_dev schema created";
      "  Creating schema in portugal_houses_prod...";
      "  ✅ portugal_houses_prod schema created";
      LF ++ "✅ All schemas created successfully!" ] /\
  filter (contains "✅") (printed (trace w)) =
    (map confirmation
       [(Football, "dev"); (Football, "prod"); (Housing, "dev"); (Housing, "prod")]
     ++ [closing_line])%list /\
  filter (contains "❌") (printed (trace w)) = [] /\
  status w = 0.
Proof.
  run_cases w; intros Hall; all_ok Hall.
  repeat split; reflexivity.
Qed.

(** C9. The text handed to the executor depends on the dataset only: two
    commands of a run whose databases belong to the same dataset, whatever
    their environment tags, carry the same SQL text, that of the dataset,
    and differ in the database argument alone. *)
Theorem payload_independent_of_environment (w : World) c1 c2 d env1 env2 :
  In c1 (commands (trace w)) ->
  In c2 (commands (trace w)) ->
  database_of c1 = target_db d env1 ->
  database_of c2 = target_db d env2 ->
  sql_of c1 = sql_of c2 /\
  c1 = psql_cmd (target_db d env1) (schema_text d) /\
  c2 = psql_cmd (target_db d env2) (schema_text d).
Proof.
  intros H1 H2 Hd1 Hd2.
  destruct (commands_declared w) as [n Hn]. rewrite Hn in H1, H2.
  apply in_firstn in H1, H2. cbn in H1, H2.
  in_cases; subst c1 c2; destruct d;
    try solve [cbn in Hd1; discriminate Hd1];
    try solve [cbn in Hd2; discriminate Hd2];
    rewrite <- Hd1, <- Hd2; repeat split; reflexivity.
Qed.

(** C3, as amended. Every database a run addresses is named
    [{prefix}_{env}] for a declared (dataset, environment) pair, where the
    prefix is fixed per dataset: [football_data] for the football dataset
    and [portugal_houses] for the housing dataset, neither being the name
    or the display name of its dataset; a run without failure addresses the
    four databases listed. *)
Theorem target_naming (w : World) :
  Forall (fun c => exists d env,
            In (d, env) declared_targets /\
            database_of c = db_prefix d ++ "_" ++ env /\
            sql_of c = schema_text d)
         (commands (trace w)) /\
  (all_succeeded (trace w) = true ->
     map database_of (commands (trace w)) =
       ["football_data_dev"; "football_data_prod";
        "portugal_houses_dev"; "portugal_houses_prod"]) /\
  db_prefix Football = "football_data" /\
  db_prefix Housing = "portugal_houses" /\
  (forall d, db_prefix d <> spec_name d /\ db_prefix d <> display_name d).
Proof.
  split; [| split; [| repeat split; try destruct d; discriminate ]].
  - destruct (commands_declared w) as [n ->]. apply Forall_forall.
    intros c Hin. apply in_firstn in Hin. apply in_map_iff in Hin.
    destruct Hin as ([d env] & <- & Hin). exists d, env. now repeat split.
  - run_cases w; intros Hall; all_ok Hall. reflexivity.
Qed.

(** C4, as amended. The script walks through four target databases: no run
    spawns more than four commands, and a run without failure invokes the
    executor once for each of the four declared targets, in order. *)
Theorem four_targets (w : World) :
  (List.length (commands (trace w)) <= 4)%nat /\
  List.length declared_targets = 4%nat /\
  (all_succeeded (trace w) = true ->
     commands (trace w) = map target_cmd declared_targets /\
     List.length (commands (trace w)) = 4%nat /\
     NoDup (map database_of (commands (trace w)))).
Proof.
  split; [apply at_most_four_commands | split; [reflexivity|]].
  run_cases w; intros Hall; all_ok Hall.
  repeat split. cbn.
  repeat (constructor; [cbn; intros Hin; in_cases; discriminate |]).
  constructor.
Qed.

End Properties.

(** ** Runs on the scripted host *)

Lemma execute_sql_contract_witness :
  fst (@execute_sql Scripted.host "football_data_dev" FOOTBALL_SCHEMA_SQL
         (Scripted.start [Scripted.Exits 1 "out" "FATAL: no such database"]))
  = Ret false.
Proof.
  set (cmd := psql_cmd "football_data_dev" FOOTBALL_SCHEMA_SQL).
  destruct (@execute_sql_contract Scripted.host
              "football_data_dev" FOOTBALL_SCHEMA_SQL
              (Scripted.start [Scripted.Exits 1 "out" "FATAL: no such database"])
              (mkCompleted cmd 1 "out" "FATAL: no such database") []
              eq_refl) as (_ & Hfail & _).
  rewrite Hfail; [reflexivity | discriminate].
Defined.

Lemma verdict_depends_on_returncode_only_witness :
  fst (@execute_sql Scripted.host "portugal_houses_prod" HOUSING_SCHEMA_SQL
         (Scripted.start [Scripted.Exits 3 "noise" EmptyString]))
  = fst (@execute_sql Scripted.host "portugal_houses_prod" HOUSING_SCHEMA_SQL
           (Scripted.start [Scripted.Exits 3 EmptyString "ERROR: permission denied"])).
Proof.
  set (cmd := psql_cmd "portugal_houses_prod" HOUSING_SCHEMA_SQL).
  exact (proj1 (@verdict_depends_on_returncode_only Scripted.host
           "portugal_houses_prod" HOUSING_SCHEMA_SQL
           (Scripted.start [Scripted.Exits 3 "noise" EmptyString])
           (Scripted.start [Scripted.Exits 3 EmptyString "ERROR: permission denied"])
           (mkCompleted cmd 3 "noise" EmptyString)
           (mkCompleted cmd 3 EmptyString "ERROR: permission denied")
           [] [] eq_refl eq_refl eq_refl)).
Defined.

(** A child that exits with status 1 and an empty standard error is a
    failure; one that exits with status 0 and a non-empty standard error is a
    success, and nothing is printed. *)
Example silent_failure :
  fst (@execute_sql Scripted.host "football_data_dev" FOOTBALL_SCHEMA_SQL
         (Scripted.start [Scripted.Exits 1 "out" EmptyString]))
  = Ret false.
Proof. reflexivity. Qed.

Example noisy_success :
  let r := @execute_sql Scripted.host "football_data_dev" FOOTBALL_SCHEMA_SQL
             (Scripted.start [Scripted.Exits 0 "out" "NOTICE: table does not exist, skipping"]) in
  fst r = Ret true /\ printed (log (snd r)) = [].
Proof. split; reflexivity. Qed.

Lemma abort_on_first_failure_witness :
  Scripted.status Scripted.prod_unreachable = 1 /\
  map database_of (commands (Scripted.trace Scripted.prod_unreachable)) =
    ["football_data_dev"; "football_data_prod"].
Proof.
  set (cmd := target_cmd (Football, "prod")).
  destruct (@abort_on_first_failure Scripted.host Scripted.prod_unreachable 1 cmd
              (mkCompleted cmd 2 EmptyString "psql: error: connection refused")
              eq_refl ltac:(discriminate))
    as (_ & Hcommands & _ & _ & Hstatus & _).
  split; [exact Hstatus | unfold Scripted.trace; now rewrite Hcommands].
Defined.

Lemma exit_status_contract_witness :
  Scripted.status Scripted.all_fine = 0 /\
  Scripted.status Scripted.prod_unreachable = 1.
Proof.
  set (cmd := target_cmd (Football, "prod")).
  split.
  - apply (@exit_status_contract Scripted.host Scripted.all_fine). reflexivity.
  - apply (proj2 (proj2 (proj2 (@exit_status_contract Scripted.host Scripted.prod_unreachable)))
             cmd (mkCompleted cmd 2 EmptyString "psql: error: connection refused")).
    + cbn. right. left. reflexivity.
    + discriminate.
Defined.

Lemma full_success_scenario_witness :
  filter (contains "✅") (printed (Scripted.trace Scripted.all_fine)) =
    [ "  ✅ football_data_dev schema created";
      "  ✅ football_data_prod schema created";
      "  ✅ portugal_houses_dev schema created";
      "  ✅ portugal_houses_prod schema created";
      closing_line ] /\
  Scripted.status Scripted.all_fine = 0.
Proof.
  destruct (@full_success_scenario Scripted.host Scripted.all_fine eq_refl)
    as (_ & Hlines & _ & Hstatus).
  split; [exact Hlines | exact Hstatus].
Defined.

Lemma payload_independent_of_environment_witness :
  sql_of (target_cmd (Housing, "dev")) = sql_of (target_cmd (Housing, "prod")).
Proof.
  apply (@payload_independent_of_environment Scripted.host Scripted.all_fine
           (target_cmd (Housing, "dev")) (target_cmd (Housing, "prod"))
           Housing "dev" "prod").
  - cbn. do 2 right. left. reflexivity.
  - cbn. do 3 right. left. reflexivity.
  - reflexivity.
  - reflexivity.
Defined.

Lemma target_naming_witness :
  map database_of (commands (Scripted.trace Scripted.all_fine)) =
    ["football_data_dev"; "football_data_prod";
     "portugal_houses_dev"; "portugal_houses_prod"].
Proof.
  apply (@target_naming Scripted.host Scripted.all_fine). reflexivity.
Defined.

Lemma four_targets_witness :
  List.length (commands (Scripted.trace Scripted.all_fine)) = 4%nat.
Proof.
  apply (@four_targets Scripted.host Scripted.all_fine). reflexivity.
Defined.

(** C3, a run against the claim. With every child succeeding, the third
    target is housing/dev and the database addressed is
    [portugal_houses_dev]: not [housing_dev], which [{dataset}_{env}] gives
    on the dataset's name, nor what it gives on its display name. The
    football dataset is thus not the only one whose prefix is not its
    name. *)
Lemma target_naming_counterexample :
  nth_error declared_targets 2 = Some (Housing, "dev") /\
  nth_error (map database_of (commands (Scripted.trace Scripted.all_fine))) 2
    = Some "portugal_houses_dev" /\
  claimed_target_db spec_name Housing "dev" = "housing_dev" /\
  claimed_target_db display_name Housing "dev" = "Housing Market_dev" /\
  map database_of (commands (Scripted.trace Scripted.all_fine)) <>
    map (fun t => claimed_target_db spec_name (fst t) (snd t)) declared_targets /\
  map database_of (commands (Scripted.trace Scripted.all_fine)) <>
    map (fun t => claimed_target_db display_name (fst t) (snd t)) declared_targets.
Proof.
  repeat split; try reflexivity; vm_compute; discriminate.
Qed.

(** C4, a run against the claim. With every child succeeding, the executor
    is invoked four times, not eight. *)
Lemma eight_targets_counterexample :
  all_succeeded (Scripted.trace Scripted.all_fine) = true /\
  List.length (commands (Scripted.trace Scripted.all_fine)) = 4%nat /\
  List.length (commands (Scripted.trace Scripted.all_fine)) <> 8%nat.
Proof.
  repeat split; try reflexivity. vm_compute. discriminate.
Qed.

(** ** The schema texts *)

(** C8. The football text declares exactly one table, [raw_pl_matches]
    (after dropping it if it exists), and exactly four indexes, all on that
    table, on its columns [match_date], [home_team], [away_team] and
    [league_division]; it holds nothing else. *)
Theorem football_schema_inventory :
  let ddl := Sql.parse FOOTBALL_SCHEMA_SQL in
  Sql.tables ddl = ["raw_pl_matches"] /\
  Sql.indexes ddl =
    [ ("raw_pl_matches", ["match_date"]);
      ("raw_pl_matches", ["home_team"]);
      ("raw_pl_matches", ["away_team"]);
      ("raw_pl_matches", ["league_division"]) ] /\
  List.length (Sql.indexes ddl) = 4%nat /\
  incl ["match_date"; "home_team"; "away_team"; "league_division";
        "ft_home_goals"; "ft_away_goals"]
       (Sql.column_names (Sql.body_of "raw_pl_matches" ddl)) /\
  Sql.dropped ddl = ["raw_pl_matches"] /\
  List.length ddl = 6%nat /\
  Sql.unread ddl = [].
Proof.
  vm_compute. repeat split.
  intros c Hin. cbn in Hin.
  repeat (destruct Hin as [<- | Hin]; [cbn; tauto |]).
  contradiction.
Qed.

(** C7, the text against the claim. The housing text creates six indexes,
    not five. *)
Lemma housing_indexes_counterexample :
  List.length (Sql.indexes (Sql.parse HOUSING_SCHEMA_SQL)) = 6%nat /\
  List.length (Sql.indexes (Sql.parse HOUSING_SCHEMA_SQL)) <> 5%nat.
Proof.
  vm_compute. split; [reflexivity | discriminate].
Qed.

(** C7, as amended. The housing text creates the three schemas [raw],
    [staging] and [marts], each with a grant; the table [raw.listings]
    whose primary key is (listing_id, scraped_at); six indexes, five on
    [raw.listings] and one on [staging.price_history]; the view
    [raw.listings_latest], a distinct-on over listing_id ordered by
    listing_id and then by scraped_at descending; the table
    [staging.price_history] with a uniqueness constraint on
    (listing_id, scraped_at); and comments on the three schemas, on the
    table [raw.listings] and on the view. *)
Theorem housing_schema_inventory :
  let ddl := Sql.parse HOUSING_SCHEMA_SQL in
  let latest := Sql.query_of "raw.listings_latest" ddl in
  Sql.schemas ddl = ["raw"; "staging"; "marts"] /\
  Sql.grants ddl = [("raw", "dataeng"); ("staging", "dataeng"); ("marts", "dataeng")] /\
  Sql.tables ddl = ["raw.listings"; "staging.price_history"] /\
  Sql.key_of ["PRIMARY"; "KEY"] (Sql.body_of "raw.listings" ddl)
    = Some ["listing_id"; "scraped_at"] /\
  Sql.indexes ddl =
    [ ("raw.listings", ["scraped_at"; "DESC"]);
      ("raw.listings", ["city"]);
      ("raw.listings", ["province"]);
      ("raw.listings", ["price_eur"]);
      ("raw.listings", ["url"]);
      ("staging.price_history", ["listing_id"]) ] /\
  Sql.views ddl = ["raw.listings_latest"] /\
  firstn 6 latest = ["SELECT"; "DISTINCT"; "ON"; "("; "listing_id"; ")"] /\
  Sql.after ["FROM"] latest
    = Some ["raw.listings"; "ORDER"; "BY"; "listing_id"; ","; "scraped_at"; "DESC"] /\
  Sql.key_of ["UNIQUE"] (Sql.body_of "staging.price_history" ddl)
    = Some ["listing_id"; "scraped_at"] /\
  Sql.comments ddl =
    [ ("SCHEMA", "raw"); ("SCHEMA", "staging"); ("SCHEMA", "marts");
      ("TABLE", "raw.listings"); ("VIEW", "raw.listings_latest") ] /\
  Sql.unread ddl = [].
Proof.
  vm_compute. repeat split.
Qed.

(** * Further properties

    Beyond the contract above: what a run does when a child cannot be
    started, what its console shows in every case, what of an answer it
    never looks at, and what the texts it sends rely on. *)

Lemma invocations_app (l1 l2 : list event) :
  invocations (l1 ++ l2) = (invocations l1 ++ invocations l2)%list.
Proof.
  induction l1 as [|[s|c a] l1 IH]; cbn; congruence.
Qed.

Section Runs.

Context {host : Host}.

(** X1. One call of [execute_sql] spawns exactly one process, the database
    client on its two arguments, whatever becomes of it; it leaves what was
    logged before in place and prints nothing, except the one diagnostic
    line when the child exits with a nonzero status; when [subprocess.run]
    raises, the exception is passed on and nothing is printed. *)
Theorem execute_sql_footprint database sql (st : state) :
  let cmd := psql_cmd database sql in
  let a := fst (subprocess_run cmd (world st)) in
  let st' := snd (execute_sql database sql st) in
  world st' = snd (subprocess_run cmd (world st)) /\
  invocations (log st') = (invocations (log st) ++ [(cmd, a)])%list /\
  printed (log st') =
    (printed (log st) ++
     match outcome_of a with
     | Failed diagnostic => [("❌ Error in " ++ database ++ ": " ++ diagnostic)%string]
     | _ => []
     end)%list /\
  fst (execute_sql database sql st) =
    match a with
    | Exited cp => Ret (returncode cp =? 0)
    | Raised what => Raise (Exception what)
    end.
Proof.
  cbv zeta.
  destruct (subprocess_run (psql_cmd database sql) (world st)) as [[cp | what] w'] eqn:Hrun.
  - rewrite (execute_sql_exited _ _ _ _ _ Hrun). cbn [fst snd outcome_of].
    destruct (returncode cp =? 0); cbn [fst snd world log];
      rewrite invocations_app, printed_app; cbn; rewrite ?app_nil_r; auto.
  - rewrite (execute_sql_raised _ _ _ _ _ Hrun). cbn [fst snd world log outcome_of].
    rewrite invocations_app, printed_app; cbn; rewrite ?app_nil_r; auto.
Qed.

(** X2. When [subprocess.run] raises on the k-th target, the run stops
    there: the commands spawned are those of T_0 .. T_k, the status is 1,
    the last things the trace holds are the announcement of that target and
    the call itself, and no line with the failure mark has been printed. *)
Theorem crash_aborts_run (w : World) (k : nat) cmd what :
  nth_error (invocations (trace w)) k = Some (cmd, Raised what) ->
  nth_error (map target_cmd declared_targets) k = Some cmd /\
  commands (trace w) = firstn (S k) (map target_cmd declared_targets) /\
  status w = 1 /\
  tail_of 2 (trace w) =
    [Printed (announcement (database_of cmd)); Ran cmd (Raised what)] /\
  filter (contains "❌") (printed (trace w)) = [].
Proof.
  run_cases w; intros Hk;
    destruct k as [|[|[|[|[|k]]]]]; cbn in Hk; try discriminate Hk;
    injection Hk as Hc Hp; subst cmd what.
  all: repeat split; reflexivity.
Qed.

(** X3. In every run at least one target is attempted, every invocation but
    the last has succeeded, and the run ends with status 0 exactly when the
    last one has succeeded too. *)
Theorem only_last_invocation_may_fail (w : World) :
  invocations (trace w) <> [] /\
  forallb (fun i => succeeded (snd i)) (removelast (invocations (trace w))) = true /\
  (status w = 0 <->
   succeeded (last (map snd (invocations (trace w))) (Raised EmptyString)) = true).
Proof.
  run_cases w; (split; [cbn; discriminate |]); rc_bool; cbn;
    repeat match goal with
           | H : (returncode _ =? 0) = _ |- _ => rewrite !H
           end; cbn; split; try reflexivity; split; intros Hx;
    try reflexivity; try discriminate Hx.
Qed.

(** X4. The confirmation lines of a run are those of its successful
    invocations, one each, in order, and each names the database of its
    invocation; the closing line is printed exactly when the status is 0. *)
Theorem confirmations_match_successes (w : World) :
  filter (prefix "  ✅ ") (printed (trace w)) =
    map (fun i => "  ✅ " ++ database_of (fst i) ++ " schema created")
        (filter (fun i => succeeded (snd i)) (invocations (trace w))) /\
  (In closing_line (printed (trace w)) <-> status w = 0).
Proof.
  run_cases w; rc_bool; cbn;
    repeat match goal with
           | H : (returncode _ =? 0) = _ |- _ => rewrite !H
           end; cbn; (split; [reflexivity |]); split; intros Hx;
    try discriminate Hx; in_cases; try discriminate; auto 20.
Qed.

(** X5. Every attempt is announced: the entry of the trace just before a
    call is the line [Creating schema in ...] that names the database of
    the call, also when the call then fails or raises; and no such line is
    printed without its call. *)
Theorem every_attempt_is_announced (w : World) :
  (forall i c a,
     nth_error (trace w) i = Some (Ran c a) ->
     exists j, i = S j /\
               nth_error (trace w) j = Some (Printed (announcement (database_of c)))) /\
  filter (prefix "  Creating schema in ") (printed (trace w)) =
    map (fun c => announcement (database_of c)) (commands (trace w)).
Proof.
  run_cases w; (split; [| reflexivity]); intros i c a Hi;
    do 18 (destruct i as [|i];
           [ cbn in Hi; try discriminate Hi; injection Hi as <- <-;
             eexists; split; reflexivity | ]);
    cbn in Hi; destruct i; discriminate Hi.
Qed.


(** X8. What a second run does to a database depends on its dataset. The
    text sent to a housing database drops nothing and each of its
    statements is guarded against an object that exists. The text sent to a
    football database starts by dropping the table [raw_pl_matches], which
    alone is guarded, and then only builds that table and its indexes. *)
Theorem rerun_conventions (w : World) c env :
  In c (commands (trace w)) ->
  (database_of c = target_db Housing env ->
     forallb Ddl.guarded (Sql.statements (sql_of c)) = true /\
     Sql.dropped (Sql.parse (sql_of c)) = []) /\
  (database_of c = target_db Football env ->
     exists rest,
       Sql.parse (sql_of c) = Sql.DropTable "raw_pl_matches" :: rest /\
       map Ddl.guarded (Sql.statements (sql_of c))
         = true :: map (fun _ => false) rest /\
       forallb (Ddl.builds "raw_pl_matches") rest = true).
Proof.
  intros Hin. destruct (commands_declared w) as [n Hn]. rewrite Hn in Hin.
  apply in_firstn in Hin. cbn in Hin.
  in_cases; subst c; (split; intros Hdb);
    try solve [cbn in Hdb; discriminate Hdb];
    try solve [vm_compute; split; reflexivity];
    eexists; vm_compute; repeat split; reflexivity.
Qed.

End Runs.

Section TwoRuns.

Context {h1 h2 : Host}.

(** X6. The console and the status of a run depend on the answers of the
    children through their outcomes only (success, failure with its
    standard error, or exception): two runs, on whatever hosts, whose
    successive outcomes agree print the same lines, spawn the same commands
    and end with the same status. The standard output of a child, the
    standard error of a successful one, the value of a nonzero status and
    the text of an exception never show. *)
Theorem output_depends_on_outcomes_only (w1 : @World h1) (w2 : @World h2) :
  outcomes (@trace h1 w1) = outcomes (@trace h2 w2) ->
  printed (@trace h1 w1) = printed (@trace h2 w2) /\
  commands (@trace h1 w1) = commands (@trace h2 w2) /\
  @status h1 w1 = @status h2 w2.
Proof.
  run_cases w1; run_cases w2; rc_bool; unfold outcomes; cbn;
    repeat match goal with
           | H : (returncode _ =? 0) = _ |- _ => rewrite !H
           end; intros Hsame; try discriminate Hsame;
    try (injection Hsame as Hsame; cbn; rewrite ?Hsame);
    repeat split; reflexivity.
Qed.

End TwoRuns.

(** ** Instances on the scripted host *)

Lemma crash_aborts_run_witness :
  Scripted.status [Scripted.ok; Scripted.Fails "docker: not found"] = 1 /\
  map database_of
      (commands (Scripted.trace [Scripted.ok; Scripted.Fails "docker: not found"]))
    = ["football_data_dev"; "football_data_prod"].
Proof.
  destruct (@crash_aborts_run Scripted.host
              [Scripted.ok; Scripted.Fails "docker: not found"] 1
              (target_cmd (Football, "prod")) "docker: not found" eq_refl)
    as (_ & Hcommands & Hstatus & _).
  split; [exact Hstatus | unfold Scripted.trace; now rewrite Hcommands].
Defined.

Lemma only_last_invocation_may_fail_witness :
  Scripted.status Scripted.all_fine = 0.
Proof.
  apply (@only_last_invocation_may_fail Scripted.host Scripted.all_fine).
  reflexivity.
Defined.

Lemma confirmations_match_successes_witness :
  In closing_line (printed (Scripted.trace Scripted.all_fine)).
Proof.
  apply (@confirmations_match_successes Scripted.host Scripted.all_fine).
  reflexivity.
Defined.

Lemma every_attempt_is_announced_witness :
  exists j,
    6%nat = S j /\
    nth_error (Scripted.trace Scripted.prod_unreachable) j
      = Some (Printed "  Creating schema in football_data_prod...").
Proof.
  set (cmd := target_cmd (Football, "prod")).
  apply (proj1 (@every_attempt_is_announced Scripted.host Scripted.prod_unreachable)
           6%nat cmd
           (Exited (mkCompleted cmd 2 EmptyString "psql: error: connection refused"))).
  reflexivity.
Defined.


Lemma rerun_conventions_witness :
  Sql.dropped (Sql.parse HOUSING_SCHEMA_SQL) = [].
Proof.
  apply (@rerun_conventions Scripted.host Scripted.all_fine
           (target_cmd (Housing, "dev")) "dev").
  - cbn. do 2 right. left. reflexivity.
  - reflexivity.
Defined.

Lemma output_depends_on_outcomes_only_witness :
  printed (Scripted.trace Scripted.prod_unreachable) =
  printed (Scripted.trace
             [Scripted.Exits 0 "DROP TABLE" "NOTICE: table does not exist, skipping";
              Scripted.Exits 7 "partial output" "psql: error: connection refused"]).
Proof.
  apply (@output_depends_on_outcomes_only Scripted.host Scripted.host
           Scripted.prod_unreachable
           [Scripted.Exits 0 "DROP TABLE" "NOTICE: table does not exist, skipping";
            Scripted.Exits 7 "partial output" "psql: error: connection refused"]).
  reflexivity.
Defined.

(** The check of [Ddl.self_contained] does reject: an index before its
    table, an index on a column the table lacks, a table in a schema the
    text does not create. *)
Example self_contained_rejects :
  Ddl.self_contained "CREATE INDEX i ON t(a); CREATE TABLE t (a INT);" = false /\
  Ddl.self_contained "CREATE TABLE t (a INT); CREATE INDEX i ON t(b);" = false /\
  Ddl.self_contained "CREATE TABLE s.t (a INT);" = false /\
  Ddl.self_contained "CREATE TABLE t (a INT); CREATE INDEX i ON t(a DESC);" = true.
Proof. vm_compute. repeat split. Qed.
